(** * BacktestRsiTool: the RSI crossing strategy and its backtest

  A shallow embedding of [main.py]: the strategy [RSIStrategy.next], the
  position sizing and stop computation it contains, and the application
  methods [set_parameters] and [run_backtest] that configure and launch a
  run.

  Numbers.  Python floats are modelled by exact rationals ([Q]); the
  not-a-number value that the indicator carries during its warm-up is
  [None].  Integers ([int]) are [Z].  Statements that compare rationals
  use [==] ([Qeq]) unless both sides come from the same computation.
  The sizing lines of [next] are also given in binary64 ([Binary64]), for
  the statements that rounding decides. *)

From Stdlib Require Import ZArith QArith Qround Qminmax List Bool Lia Lqa.
From Stdlib Require String.
From Stdlib Require Floats.
Import ListNotations.

Open Scope Q_scope.

(** ** Python arithmetic *)

Module Py.

(** A float that may be not-a-number. *)
Definition float := option Q.

Definition Qltb (x y : Q) : bool := negb (Qle_bool y x).

(** [v > bound] and [v < bound] for a float [v] and an int [bound]: every
    comparison with not-a-number is [False]. *)
Definition gt (v : float) (bound : Z) : bool :=
  match v with
  | Some x => Qltb (inject_Z bound) x
  | None => false
  end.

Definition lt (v : float) (bound : Z) : bool :=
  match v with
  | Some x => Qltb x (inject_Z bound)
  | None => false
  end.

(** [int(x)]: truncation toward zero. *)
Definition int (x : Q) : Z := Z.quot (Qnum x) (Zpos (Qden x)).

End Py.

(** ** The strategy *)

Module RSIStrategy.

(** The class attributes of [RSIStrategy].  They are shared by every
    instance and are overwritten by [run_backtest] before each run. *)
Record Class := {
  upper_bound : Z;
  lower_bound : Z;
  risk : Q;
  leverage : Q
}.

(** The class as the source declares it ([leverage] has no declared
    default; it is assigned before the first run). *)
Definition declared (lev : Q) : Class :=
  {| upper_bound := 70; lower_bound := 30; risk := 1; leverage := lev |}.

(** One row of [self.data]: the OHLC columns and the attached [RSI]. *)
Record Bar := {
  Open : Q;
  High : Q;
  Low : Q;
  Close : Q;
  RSI : Py.float
}.

(** What [self.position] answers. *)
Record PositionView := {
  is_long : bool;
  is_short : bool
}.

(** What [next] reads through [self] at one bar: the class attributes,
    the last two indicator values, the account equity, the current row and
    the position as it stands when [next] is called.  Whether a
    [self.position.close()] is already visible in the later reads of
    [self.position] of the same call is the broker's affair
    ([closes_at_once]); [next] is modelled for both. *)
Record Self := {
  cls : Class;
  rsi_last : Py.float;          (* self.rsi[-1] *)
  rsi_before : Py.float;        (* self.rsi[-2] *)
  equity : Q;
  data : Bar;                   (* self.data.<column>[-1] *)
  position_at_call : PositionView;
  closes_at_once : bool
}.

(** The calls [next] makes on the broker. *)
Inductive Call :=
| PositionClose
| Buy (size : Z) (sl : Q)
| Sell (size : Z) (sl : Q).

(** The broker during one call of [next]: what [self.position] answers at
    this point, and the calls made so far, in program order. *)
Record Broker := {
  position : PositionView;
  submitted : list Call
}.

Definition Orders (A : Type) : Type := Broker -> A * Broker.

Definition ret {A} (a : A) : Orders A := fun br => (a, br).

Definition bind {A B} (m : Orders A) (k : A -> Orders B) : Orders B :=
  fun br => let (a, br') := m br in k a br'.

Notation "x <- m ;; k" := (bind m (fun x => k))
  (at level 61, m at next level, right associativity).

Notation "m ;; k" := (bind m (fun _ => k))
  (at level 61, right associativity).

Definition get_position : Orders PositionView :=
  fun br => (position br, br).

Definition submit (c : Call) : Orders unit :=
  fun br => (tt, {| position := position br;
                    submitted := submitted br ++ [c] |}).

Definition flat : PositionView := {| is_long := false; is_short := false |}.

(** [self.position.close()]. *)
Definition position_close (at_once : bool) : Orders unit :=
  fun br => (tt, {| position := if at_once then flat else position br;
                    submitted := submitted br ++ [PositionClose] |}).

Definition when (b : bool) (m : Orders unit) : Orders unit :=
  if b then m else ret tt.

Definition position_size (self : Self) : Q :=
  let capital_with_leverage := equity self * leverage (cls self) in
  capital_with_leverage / Close (data self).

Definition stop_loss_long (self : Self) : Q :=
  Close (data self)
  - (equity self * (risk (cls self) / 100)) / position_size self.

Definition stop_loss_short (self : Self) : Q :=
  (equity self * (risk (cls self) / 100)) / position_size self
  + Close (data self).

(** [RSIStrategy.next].  [Q]'s division is total (a zero divisor gives 0,
    where the floats give an infinity or not-a-number): statements that
    depend on a quotient assume a positive price and equity. *)
Definition next (self : Self) : Orders unit :=
  let rsi_t := rsi_last self in
  let rsi_t_minus_1 := rsi_before self in
  let ub := upper_bound (cls self) in
  let lb := lower_bound (cls self) in
  pos <- get_position ;;
  when (is_long pos && Py.gt rsi_t_minus_1 ub && Py.lt rsi_t ub)
       (position_close (closes_at_once self)) ;;
  pos <- get_position ;;
  when (is_short pos && Py.lt rsi_t_minus_1 lb && Py.gt rsi_t lb)
       (position_close (closes_at_once self)) ;;
  if Py.lt rsi_t_minus_1 lb && Py.gt rsi_t lb then
    pos <- get_position ;;
    when (negb (is_long pos))
         (submit (Buy (Py.int (position_size self)) (stop_loss_long self)))
  else if Py.gt rsi_t_minus_1 ub && Py.lt rsi_t ub then
    pos <- get_position ;;
    when (negb (is_short pos))
         (submit (Sell (Py.int (position_size self)) (stop_loss_short self)))
  else ret tt.

(** The calls of one invocation of [next], in order. *)
Definition calls (self : Self) : list Call :=
  submitted
    (snd (next self {| position := position_at_call self;
                       submitted := [] |})).

End RSIStrategy.

(** ** The indicator *)

Module Indicator.

(** [ta.rsi], which [set_parameters] calls, is not part of [main.py]; the
    indicator below follows the specification of the indicator pipeline. *)

(** Modelled from the spec: the gain of a price change. *)
Definition gain (d : Q) : Q := Qmax d 0.

(** Modelled from the spec: the loss of a price change. *)
Definition loss (d : Q) : Q := Qmax (- d) 0.

(** The change of the close price at each bar after the first. *)
Fixpoint changes (prev : Q) (closes : list Q) : list Q :=
  match closes with
  | [] => []
  | c :: rest => (c - prev) :: changes c rest
  end.

Fixpoint smooth (alpha acc : Q) (xs : list Q) : list Q :=
  match xs with
  | [] => []
  | x :: rest =>
      let acc' := alpha * x + (1 - alpha) * acc in
      acc' :: smooth alpha acc' rest
  end.

Definition average (alpha : Q) (xs : list Q) : list Q :=
  match xs with
  | [] => []
  | x :: rest => x :: smooth alpha x rest
  end.

(** The oscillator from the two averages; it is not a number when both
    averages vanish. *)
Definition strength (g l : Q) : Py.float :=
  if Qeq_bool (g + l) 0 then None else Some (100 * g / (g + l)).

Fixpoint strengths (gs ls : list Q) : list Py.float :=
  match gs, ls with
  | g :: gs', l :: ls' => strength g l :: strengths gs' ls'
  | _, _ => []
  end.

(** The first [n] values replaced by not-a-number. *)
Fixpoint warm_up (n : nat) (vs : list Py.float) : list Py.float :=
  match n, vs with
  | S n', _ :: vs' => None :: warm_up n' vs'
  | _, _ => vs
  end.

(** Modelled from the spec: [ta.rsi(close, length)], one value per bar:
    an exponential average, with smoothing [1 / length], of the gains
    against the losses of the close price; the first [length] bars are
    undefined. *)
Definition rsi (closes : list Q) (length : nat) : list Py.float :=
  match closes with
  | [] => []
  | c0 :: rest =>
      let ds := changes c0 rest in
      let alpha := 1 / inject_Z (Z.of_nat length) in
      let gains := average alpha (map gain ds) in
      let losses := average alpha (map loss ds) in
      None :: warm_up (length - 1) (strengths gains losses)
  end.

End Indicator.

(** ** The backtest engine *)

Module Engine.

Import RSIStrategy.

(** The engine behind [Backtest(...).run()] and the broker behind
    [self.buy], [self.sell] and [self.position] belong to the backtesting
    package and are not part of [main.py].  What follows is the data model
    of the specification's section 3 and the per-bar loop of its section
    4.4: [next] is evaluated on the last two indicator values, its calls are
    then executed in order at the bar's close price, and the equity is
    marked.  The book of open positions is a list, so that holding a single
    position is a property of a run and not of the representation.  A
    series too short for the indicator is refused before the loop
    ([backtest]); [main.py] itself never tests the number of bars. *)

Inductive Direction := Long | Short.

Record Position := {
  direction : Direction;
  size : Z;
  entry_price : Q;
  stop_price : Q;
  entry_index : nat
}.

Record Trade := {
  trade_entry_index : nat;
  trade_exit_index : nat;
  trade_direction : Direction;
  trade_entry_price : Q;
  trade_exit_price : Q;
  trade_size : Z;
  realized_pnl : Q
}.

Inductive Rejection := InvalidSize | MarginExceeded | PositionOpen.

Record Account := {
  cash : Q;
  book : list Position;
  trade_log : list Trade;
  equity_curve : list Q;
  event_log : list (nat * Rejection)
}.

(** The keyword arguments of [Backtest(...)] besides the data. *)
Record Config := {
  commission : Q;
  margin : Q
}.

Definition is_direction (d : Direction) (p : Position) : bool :=
  match d, direction p with
  | Long, Long | Short, Short => true
  | _, _ => false
  end.

(** Modelled from the spec: what [self.position] answers for a book. *)
Definition view (b : list Position) : PositionView :=
  {| is_long := existsb (is_direction Long) b;
     is_short := existsb (is_direction Short) b |}.

(** Modelled from the spec: the profit of an open position at price [P],
    by direction. *)
Definition unrealized (P : Q) (p : Position) : Q :=
  match direction p with
  | Long => inject_Z (size p) * (P - entry_price p)
  | Short => inject_Z (size p) * (entry_price p - P)
  end.

Definition total (xs : list Q) : Q := fold_right Qplus 0 xs.

(** Modelled from the spec: equity = cash + unrealized profit of the open
    position, marked at [P]. *)
Definition equity_at (P : Q) (a : Account) : Q :=
  cash a + total (map (unrealized P) (book a)).

(** Modelled from the spec: a refused order leaves the account as it is
    and is recorded in the event log. *)
Definition reject (i : nat) (r : Rejection) (a : Account) : Account :=
  {| cash := cash a; book := book a; trade_log := trade_log a;
     equity_curve := equity_curve a;
     event_log := event_log a ++ [(i, r)] |}.

(** Modelled from the spec: closing one position at [P]: the profit is realised, the commission on
    the traded notional is charged and the trade is recorded. *)
Definition settle (cfg : Config) (i : nat) (P : Q) (a : Account)
    (p : Position) : Account :=
  let fee := commission cfg * (inject_Z (size p) * P) in
  let pnl := unrealized P p - fee in
  {| cash := cash a + pnl;
     book := book a;
     trade_log := trade_log a ++
       [{| trade_entry_index := entry_index p; trade_exit_index := i;
           trade_direction := direction p;
           trade_entry_price := entry_price p; trade_exit_price := P;
           trade_size := size p; realized_pnl := pnl |}];
     equity_curve := equity_curve a;
     event_log := event_log a |}.

(** Modelled from the spec: a close action settles every position of the
    book and leaves it empty. *)
Definition close_all (cfg : Config) (i : nat) (P : Q) (a : Account)
    : Account :=
  let a' := fold_left (settle cfg i P) (book a) a in
  {| cash := cash a'; book := []; trade_log := trade_log a';
     equity_curve := equity_curve a'; event_log := event_log a' |}.

(** Modelled from the spec: opening a position of [n] units at [P].  A size that is not positive is
    refused ([InvalidSize]), as is an order while a position is open, and an
    order whose margin [n * P * margin] exceeds the cash
    ([MarginExceeded]); an accepted order pays the commission. *)
Definition open_position (cfg : Config) (i : nat) (P : Q) (d : Direction)
    (n : Z) (sl : Q) (a : Account) : Account :=
  if (n <=? 0)%Z then reject i InvalidSize a
  else match book a with
  | _ :: _ => reject i PositionOpen a
  | [] =>
      let notional := inject_Z n * P in
      if Py.Qltb (cash a) (notional * margin cfg)
      then reject i MarginExceeded a
      else
        {| cash := cash a - commission cfg * notional;
           book := book a ++
             [{| direction := d; size := n; entry_price := P;
                 stop_price := sl; entry_index := i |}];
           trade_log := trade_log a;
           equity_curve := equity_curve a;
           event_log := event_log a |}
  end.

(** Modelled from the spec: the effect of one call of the strategy. *)
Definition execute (cfg : Config) (i : nat) (P : Q) (a : Account)
    (c : Call) : Account :=
  match c with
  | PositionClose => close_all cfg i P a
  | Buy n sl => open_position cfg i P Long n sl a
  | Sell n sl => open_position cfg i P Short n sl a
  end.

(** Modelled from the spec: the equity of the bar is appended to the
    equity curve. *)
Definition mark (P : Q) (a : Account) : Account :=
  {| cash := cash a; book := book a; trade_log := trade_log a;
     equity_curve := equity_curve a ++ [equity_at P a];
     event_log := event_log a |}.

(** Modelled from the spec: what the strategy sees at bar [b], whose
    predecessor is [prev]; the calls of [next] are executed once it has
    returned. *)
Definition self_at (cls : Class) (prev b : Bar) (a : Account) : Self :=
  {| RSIStrategy.cls := cls;
     rsi_last := RSI b;
     rsi_before := RSI prev;
     equity := equity_at (Close b) a;
     data := b;
     position_at_call := view (book a);
     closes_at_once := false |}.

(** Modelled from the spec: one bar of the loop. *)
Definition step (cfg : Config) (cls : Class) (i : nat) (prev b : Bar)
    (a : Account) : Account :=
  let orders := calls (self_at cls prev b a) in
  mark (Close b) (fold_left (execute cfg i (Close b)) orders a).

(** Modelled from the spec: the accounts after each bar from index [i]
    on. *)
Fixpoint loop (cfg : Config) (cls : Class) (i : nat) (prev : Bar)
    (rest : list Bar) (a : Account) : list Account :=
  match rest with
  | [] => []
  | b :: rest' =>
      let a' := step cfg cls i prev b a in
      a' :: loop cfg cls (S i) b rest' a'
  end.

(** Modelled from the spec: the account at the start of a run. *)
Definition start (capital : Q) : Account :=
  {| cash := capital; book := []; trade_log := []; equity_curve := [];
     event_log := [] |}.

(** Modelled from the spec: the loop of a run; bars [period + 1 .. N - 1]
    are simulated, each with its predecessor. *)
Definition run (cfg : Config) (cls : Class) (period : nat) (capital : Q)
    (bars : list Bar) : list Account :=
  match skipn period bars with
  | [] => []
  | prev :: rest => loop cfg cls (S period) prev rest (start capital)
  end.

(** Modelled from the spec: the account the reporter reads. *)
Definition final (capital : Q) (accounts : list Account) : Account :=
  last accounts (start capital).

(** Modelled from the spec: the run as the engine starts it (sections 4.1,
    6 and 7).  A series of fewer than [period + 2] bars cannot give two
    consecutive indicator values: it is refused before any bar is
    simulated ([None], the failure [InsufficientData]); any other series
    goes through the loop. *)
Definition backtest (cfg : Config) (cls : Class) (period : nat)
    (capital : Q) (bars : list Bar) : option (list Account) :=
  if (length bars <? period + 2)%nat then None
  else Some (run cfg cls period capital bars).

(** The condition under which [next] calls [self.position.close()]: a
    long position and a downward crossing of the upper bound, or a short
    position and an upward crossing of the lower bound. *)
Definition exit_signal (cls : Class) (v : PositionView) (prev b : Bar)
    : bool :=
  (is_long v && Py.gt (RSI prev) (upper_bound cls)
             && Py.lt (RSI b) (upper_bound cls))
  || (is_short v && Py.lt (RSI prev) (lower_bound cls)
                 && Py.gt (RSI b) (lower_bound cls)).

(** Between the accounts [a] and [a'] around one bar, a trade is recorded
    and a position leaves the book only on an exit signal. *)
Definition exit_only_on_signal (cls : Class) (prev b : Bar)
    (a a' : Account) : Prop :=
  (trade_log a' <> trade_log a ->
   exit_signal cls (view (book a)) prev b = true)
  /\ (forall p, In p (book a) ->
      In p (book a') \/ exit_signal cls (view (book a)) prev b = true).

(** The same along the bars [rest] that follow [prev], for the accounts
    [trace] that follow [a]. *)
Fixpoint exits_on_signals (cls : Class) (prev : Bar) (rest : list Bar)
    (a : Account) (trace : list Account) : Prop :=
  match rest, trace with
  | b :: rest', a' :: trace' =>
      exit_only_on_signal cls prev b a a'
      /\ exits_on_signals cls b rest' a' trace'
  | _, _ => True
  end.

(** Two bars with the same close and indicator value. *)
Definition same_signal (b b' : Bar) : Prop :=
  Close b = Close b' /\ RSI b = RSI b'.

(** At most one position is open, and no order was ever refused because
    one was. *)
Definition single_position (a : Account) : Prop :=
  (length (book a) <= 1)%nat
  /\ (is_long (view (book a)) && is_short (view (book a)) = false)
  /\ Forall (fun e => snd e <> PositionOpen) (event_log a).

(** Every exit of a run happens on an exit signal. *)
Definition run_exits_on_signals (cls : Class) (period : nat) (capital : Q)
    (bars : list Bar) (trace : list Account) : Prop :=
  match skipn period bars with
  | [] => True
  | prev :: rest => exits_on_signals cls prev rest (start capital) trace
  end.

End Engine.

(** ** The application *)

Module BacktestRSIApp.

(** The values of the sidebar widgets ([self.capital] ... [self.lower_bound])
    and of the button of [set_parameters]. *)
Record Inputs := {
  capital : Q;
  leverage : Q;
  risk_percentage : Q;
  period : nat;
  upper_bound : Z;
  lower_bound : Z;
  button : bool
}.

(** [self.output]: what the reporter hands over at the end of a run. *)
Record Report := {
  equity_final : Q;
  curve : list Q;
  trades : list Engine.Trade;
  events : list (nat * Engine.Rejection)
}.

Inductive Error := InsufficientData.

Inductive Outcome :=
| Aborted (e : Error)
| Finished (r : Report).

Definition with_rsi (b : RSIStrategy.Bar) (v : Py.float) : RSIStrategy.Bar :=
  {| RSIStrategy.Open := RSIStrategy.Open b;
     RSIStrategy.High := RSIStrategy.High b;
     RSIStrategy.Low := RSIStrategy.Low b;
     RSIStrategy.Close := RSIStrategy.Close b;
     RSIStrategy.RSI := v |}.

(** [self.data['RSI'] = values]: the column is created or overwritten; a
    row without a value gets not-a-number. *)
Fixpoint assign_rsi (data : list RSIStrategy.Bar) (values : list Py.float)
    : list RSIStrategy.Bar :=
  match data, values with
  | [], _ => []
  | b :: data', [] => with_rsi b None :: assign_rsi data' []
  | b :: data', v :: values' => with_rsi b v :: assign_rsi data' values'
  end.

Definition report (capital : Q) (accounts : list Engine.Account) : Report :=
  let a := Engine.final capital accounts in
  {| equity_final := last (Engine.equity_curve a) capital;
     curve := Engine.equity_curve a;
     trades := Engine.trade_log a;
     events := Engine.event_log a |}.

(** [run_backtest]: the class attributes of [RSIStrategy] are assigned from
    the inputs, then the backtest is built (commission 0.002, margin
    [1 / leverage]) and run; a run that the engine refuses aborts the
    method. *)
Definition run_backtest (inp : Inputs) (data : list RSIStrategy.Bar)
    (cls : RSIStrategy.Class) : RSIStrategy.Class * Outcome :=
  let cls' :=
    {| RSIStrategy.upper_bound := upper_bound inp;
       RSIStrategy.lower_bound := lower_bound inp;
       RSIStrategy.risk := risk_percentage inp;
       RSIStrategy.leverage := leverage inp |} in
  let cfg :=
    {| Engine.commission := 2 # 1000;
       Engine.margin := 1 / leverage inp |} in
  (cls',
   match Engine.backtest cfg cls' (period inp) (capital inp) data with
   | Some accounts => Finished (report (capital inp) accounts)
   | None => Aborted InsufficientData
   end).

(** [set_parameters]: the indicator column is attached to the data; the
    run is launched when the button is pressed.  The result is the data and
    the class as the call leaves them, and the outcome of the run if one
    was launched. *)
Definition set_parameters (inp : Inputs) (data : list RSIStrategy.Bar)
    (cls : RSIStrategy.Class)
    : list RSIStrategy.Bar * RSIStrategy.Class * option Outcome :=
  let data' :=
    assign_rsi data
      (Indicator.rsi (map RSIStrategy.Close data) (period inp)) in
  if button inp then
    let (cls', out) := run_backtest inp data' cls in
    (data', cls', Some out)
  else (data', cls, None).

End BacktestRSIApp.

(** ** The transition rules as the specification words them *)

Module SignalRules.

(** The state of the signal state machine mirrors the direction of the
    position; [None] is Flat. *)
Definition State := option Engine.Direction.

Inductive Action := ClosePosition | OpenLong | OpenShort.

(** [v_prev > bound] and [v_now < bound]. *)
Definition crossed_down (v_prev v_now : Q) (bound : Z) : bool :=
  Py.Qltb (inject_Z bound) v_prev && Py.Qltb v_now (inject_Z bound).

(** [v_prev < bound] and [v_now > bound]. *)
Definition crossed_up (v_prev v_now : Q) (bound : Z) : bool :=
  Py.Qltb v_prev (inject_Z bound) && Py.Qltb (inject_Z bound) v_now.

Definition is_state (d : Engine.Direction) (s : State) : bool :=
  match s, d with
  | Some Engine.Long, Engine.Long | Some Engine.Short, Engine.Short => true
  | _, _ => false
  end.

Section Rules.

Variables (upper_bound lower_bound : Z) (v_prev v_now : Q).

Definition rule1 (s : State) : State * list Action :=
  if is_state Engine.Long s && crossed_down v_prev v_now upper_bound
  then (None, [ClosePosition]) else (s, []).

Definition rule2 (s : State) : State * list Action :=
  if is_state Engine.Short s && crossed_up v_prev v_now lower_bound
  then (None, [ClosePosition]) else (s, []).

Definition rule3 (s : State) : State * list Action :=
  if crossed_up v_prev v_now lower_bound && negb (is_state Engine.Long s)
  then (Some Engine.Long,
        (if is_state Engine.Short s then [ClosePosition] else [])
        ++ [OpenLong])
  else (s, []).

Definition rule4 (s : State) : State * list Action :=
  if crossed_down v_prev v_now upper_bound && negb (is_state Engine.Short s)
  then (Some Engine.Short,
        (if is_state Engine.Long s then [ClosePosition] else [])
        ++ [OpenShort])
  else (s, []).

(** The rules applied in their order within one step, each on the state
    the previous one leaves; rule 5 (hold) is what remains when none
    fires. *)
Definition then_rule (r : State -> State * list Action)
    (acc : State * list Action) : State * list Action :=
  let (s, done) := acc in
  let (s', more) := r s in
  (s', done ++ more).

Definition transition (s : State) : State * list Action :=
  then_rule rule4 (then_rule rule3 (then_rule rule2 (rule1 s))).

End Rules.

(** The state a call of the strategy leads to once it is filled, and the
    action it stands for. *)
Definition after (s : State) (c : RSIStrategy.Call) : State :=
  match c with
  | RSIStrategy.PositionClose => None
  | RSIStrategy.Buy _ _ => Some Engine.Long
  | RSIStrategy.Sell _ _ => Some Engine.Short
  end.

Definition action_of (c : RSIStrategy.Call) : Action :=
  match c with
  | RSIStrategy.PositionClose => ClosePosition
  | RSIStrategy.Buy _ _ => OpenLong
  | RSIStrategy.Sell _ _ => OpenShort
  end.

Definition view_of (s : State) : RSIStrategy.PositionView :=
  {| RSIStrategy.is_long := is_state Engine.Long s;
     RSIStrategy.is_short := is_state Engine.Short s |}.

(** The strategy at a bar, in state [s], with the two indicator values
    [v_prev] and [v_now]. *)
Definition self_in (c : RSIStrategy.Class) (s : State)
    (v_prev v_now : Py.float) (E : Q) (b : RSIStrategy.Bar)
    (at_once : bool) : RSIStrategy.Self :=
  {| RSIStrategy.cls := c; RSIStrategy.rsi_last := v_now;
     RSIStrategy.rsi_before := v_prev; RSIStrategy.equity := E;
     RSIStrategy.data := b; RSIStrategy.position_at_call := view_of s;
     RSIStrategy.closes_at_once := at_once |}.

(** A bar whose four prices are [P]. *)
Definition bar_at (P : Q) : RSIStrategy.Bar :=
  {| RSIStrategy.Open := P; RSIStrategy.High := P; RSIStrategy.Low := P;
     RSIStrategy.Close := P; RSIStrategy.RSI := None |}.

(** The loss of the position a call opens at [entry] when it is later
    filled at the stop the call carries. *)
Definition loss_if_stopped (entry : Q) (c : RSIStrategy.Call) : Q :=
  match c with
  | RSIStrategy.PositionClose => 0
  | RSIStrategy.Buy n sl => inject_Z n * (entry - sl)
  | RSIStrategy.Sell n sl => inject_Z n * (sl - entry)
  end.

Definition order_size (c : RSIStrategy.Call) : option Z :=
  match c with
  | RSIStrategy.PositionClose => None
  | RSIStrategy.Buy n _ | RSIStrategy.Sell n _ => Some n
  end.

End SignalRules.

(** ** Sample data *)

Module Samples.

Definition bar (P : Q) (hi lo : Q) (v : Py.float) : RSIStrategy.Bar :=
  {| RSIStrategy.Open := P; RSIStrategy.High := hi; RSIStrategy.Low := lo;
     RSIStrategy.Close := P; RSIStrategy.RSI := v |}.

(** Six bars with their indicator values: an upward crossing of 30 at
    index 2 and a downward crossing of 70 at index 4. *)
Definition bars : list RSIStrategy.Bar :=
  [ bar 100 101 99 None; bar 100 101 99 (Some 25);
    bar 100 102 98 (Some 35); bar 102 103 90 (Some 75);
    bar 104 105 103 (Some 65); bar 103 120 102 (Some 60) ].

Definition cfg : Engine.Config :=
  {| Engine.commission := 2 # 1000; Engine.margin := 1 / 2 |}.

(** Ten rows of prices, without an indicator column yet. *)
Definition rows : list RSIStrategy.Bar :=
  map (fun P => bar P (P + 1) (P - 1) None)
      [100; 101; 102; 101; 103; 104; 103; 105; 106; 104].

Definition inputs (n : nat) (pressed : bool) : BacktestRSIApp.Inputs :=
  {| BacktestRSIApp.capital := 5000; BacktestRSIApp.leverage := 1;
     BacktestRSIApp.risk_percentage := 1; BacktestRSIApp.period := n;
     BacktestRSIApp.upper_bound := 70; BacktestRSIApp.lower_bound := 30;
     BacktestRSIApp.button := pressed |}.

(** The same closes and indicator values with other extremes: the low of
    bar 3 stays above the stop of the position opened at bar 2. *)
Definition calm_bars : list RSIStrategy.Bar :=
  [ bar 100 100 100 None; bar 100 100 100 (Some 25);
    bar 100 100 100 (Some 35); bar 102 102 102 (Some 75);
    bar 104 104 104 (Some 65); bar 103 103 103 (Some 60) ].

End Samples.

(** ** The sizing lines in binary64 *)

Module Binary64.

Import Floats.
Local Open Scope float_scope.

(** Lines 121 to 126 of [next] in the arithmetic of Python's [float]:
    every product, quotient, sum and difference is rounded to the nearest
    binary64 value. *)
Definition position_size (equity leverage close : float) : float :=
  let capital_with_leverage := equity * leverage in
  capital_with_leverage / close.

Definition stop_loss_long (equity leverage risk close : float) : float :=
  close - (equity * (risk / 100)) / position_size equity leverage close.

Definition stop_loss_short (equity leverage risk close : float) : float :=
  (equity * (risk / 100)) / position_size equity leverage close + close.

(** [int(x)]: truncation toward zero; it raises ([None]) on an infinity
    and on not-a-number. *)
Definition int (x : float) : option Z :=
  match Prim2SF x with
  | S754_zero _ => Some 0%Z
  | S754_finite s m e =>
      let v := match e with
               | Z0 => Zpos m
               | Zpos p => (Zpos m * 2 ^ Zpos p)%Z
               | Zneg p => (Zpos m / 2 ^ Zpos p)%Z
               end in
      Some (if s then (- v)%Z else v)
  | _ => None
  end.

(** The rational a finite binary64 value stands for. *)
Definition exact (x : float) : option Q :=
  match Prim2SF x with
  | S754_zero _ => Some 0%Q
  | S754_finite s m e =>
      let v := (inject_Z (Zpos m) * Qpower 2 e)%Q in
      Some (if s then (- v)%Q else v)
  | _ => None
  end.

(** The loss of [n] units bought at [close] and sold at [stop], both
    binary64 values, computed without rounding. *)
Definition loss_if_stopped_long (n : Z) (close stop : float) : option Q :=
  match exact close, exact stop with
  | Some c, Some s => Some (inject_Z n * (c - s))%Q
  | _, _ => None
  end.

End Binary64.

(** ** The page *)

Module Page.

Import RSIStrategy BacktestRSIApp.
Import String.StringSyntax.
Delimit Scope string_scope with string.

(** [round(x)] to the nearest integer, a tie going to the even one. *)
Definition round_half_even (x : Q) : Z :=
  let f := Qfloor x in
  let r := x - inject_Z f in
  if Py.Qltb r (1 # 2) then f
  else if Py.Qltb (1 # 2) r then (f + 1)%Z
  else if Z.even f then f else (f + 1)%Z.

(** [round(x, 2)]. *)
Definition round2 (x : Q) : Q := inject_Z (round_half_even (x * 100)) / 100.

(** The options of the radio button and of the timeframe select box. *)
Inductive Source := CSV | YahooFinance.

Inductive Timeframe := Day1 | Hour4 | Hour1 | Min15 | Min5.

(** The texts of the success and error boxes; [e] is the text of the
    exception, [p] the profit that the text quotes. *)
Inductive Notice :=
| CsvLoaded
| CsvFailed (e : String.string)
| YahooLoaded
| YahooFailed (e : String.string)
| ProfitTotal (p : Q).

(** What the application writes to the page, in order. *)
Inductive Shown :=
| Title
| Intro
| SuccessBox (n : Notice)            (* st.success *)
| ErrorBox (n : Notice)              (* st.error *)
| Tail (rows : list Bar)             (* st.write(data.tail()) *)
| Candles (n : nat)                  (* the number of rows *)
| Subheader
| Results (r : Report)               (* st.write(self.output) *)
| Plot.

(** [data.tail()]: the last five rows. *)
Definition tail (data : list Bar) : list Bar :=
  skipn (length data - 5) data.

(** The ranges that the sidebar widgets of [set_parameters] enforce on their
    values. *)
Definition in_ranges (inp : Inputs) : bool :=
  Qle_bool 1000 (capital inp) && Qle_bool (capital inp) 10000
  && Qle_bool 1 (leverage inp) && Qle_bool (leverage inp) 100
  && Qle_bool (1 # 10) (risk_percentage inp)
  && Qle_bool (risk_percentage inp) 100
  && (7 <=? period inp)%nat && (period inp <=? 50)%nat
  && (50 <=? upper_bound inp)%Z && (upper_bound inp <=? 95)%Z
  && (5 <=? lower_bound inp)%Z && (lower_bound inp <=? 50)%Z.

(** [profit_total] of [run_backtest]. *)
Definition profit_total (inp : Inputs) (r : Report) : Q :=
  round2 (equity_final r - capital inp).

(** What [run_backtest] writes once the run has returned [r]. *)
Definition run_backtest_shown (inp : Inputs) (r : Report) : list Shown :=
  let p := profit_total inp r in
  [ Subheader; Results r;
    if Py.Qltb p 0 then ErrorBox (ProfitTotal p)
    else SuccessBox (ProfitTotal p);
    Plot ].

(** [set_parameters] with what it writes: the number of rows, then the
    output of [run_backtest] if the button launched it. *)
Definition set_parameters_shown (inp : Inputs) (data : list Bar)
    (c : Class) : (list Bar * Class * option Outcome) * list Shown :=
  let r := set_parameters inp data c in
  (r, Candles (length data)
      :: match snd r with
         | Some (Finished rep) => run_backtest_shown inp rep
         | _ => []
         end).

Section Loaders.

(** The two readers the application calls, [pd.read_csv] on the uploaded
    file and [yf.download] on a symbol and a timeframe: each returns a
    frame or raises, [inl e] standing for the exception of text [e]. *)
Variable File : Type.
Variable read_csv : File -> String.string + list Bar.
Variable download : String.string -> Timeframe -> String.string + list Bar.

(** The values of the widgets of the page. *)
Record Widgets := {
  data_source : Source;
  uploaded_file : option File;
  symbol : String.string;
  timeframe : Timeframe;
  sidebar : Inputs
}.

(** [self.data] and [self.output]; the output is assigned once the run
    has returned. *)
Record App := {
  app_data : option (list Bar);
  app_output : option Report
}.

Definition returned (out : option Outcome) : option Report :=
  match out with
  | Some (Finished r) => Some r
  | _ => None
  end.

Definition load_csv_data (uploaded : File)
    : option (list Bar) * list Shown :=
  match read_csv uploaded with
  | inr data => (Some data, [SuccessBox CsvLoaded; Tail (tail data)])
  | inl e => (None, [ErrorBox (CsvFailed e)])
  end.

Definition load_yahoo_data (sym : String.string) (tf : Timeframe)
    : option (list Bar) * list Shown :=
  match download sym tf with
  | inr data => (Some data, [SuccessBox YahooLoaded; Tail (tail data)])
  | inl e => (None, [ErrorBox (YahooFailed e)])
  end.

(** [choose_data_source]; [data] is [self.data] before the call. *)
Definition choose_data_source (w : Widgets) (data : option (list Bar))
    : option (list Bar) * list Shown :=
  match data_source w with
  | CSV =>
      match uploaded_file w with
      | Some uploaded => load_csv_data uploaded
      | None => (data, [])
      end
  | YahooFinance => load_yahoo_data (symbol w) (timeframe w)
  end.

(** [__init__] and [setup_ui]: [self.data] starts as [None]; the sidebar is
    reached when a frame was loaded. *)
Definition setup_ui (w : Widgets) (c : Class) : App * Class * list Shown :=
  let (data, loaded) := choose_data_source w None in
  match data with
  | Some frame =>
      let (r, shown) := set_parameters_shown (sidebar w) frame c in
      ({| app_data := Some (fst (fst r));
          app_output := returned (snd r) |},
       snd (fst r),
       [Title; Intro] ++ loaded ++ shown)
  | None =>
      ({| app_data := None; app_output := None |}, c,
       [Title; Intro] ++ loaded)
  end.

End Loaders.

Arguments data_source {File}.
Arguments uploaded_file {File}.
Arguments symbol {File}.
Arguments timeframe {File}.
Arguments sidebar {File}.

(** A file store for the examples: file 0 cannot be parsed, any other
    file holds the ten sample rows; every download fails but that of
    [EURUSD=X]. *)
Definition sample_read_csv (f : nat) : String.string + list Bar :=
  match f with
  | O => inl "Date"%string
  | _ => inr Samples.rows
  end.

Definition sample_download (sym : String.string) (tf : Timeframe)
    : String.string + list Bar :=
  if String.eqb sym "EURUSD=X"%string then inr Samples.rows
  else inl "no data"%string.

Definition sample_widgets (src : Source) (f : option nat) (pressed : bool)
    : Widgets nat :=
  {| data_source := src; uploaded_file := f; symbol := "EURUSD=X"%string;
     timeframe := Day1; sidebar := Samples.inputs 3 pressed |}.

End Page.

(** ** Proof steps shared by the statements below *)

Module Tactics.

(** Case analysis on every comparison of an indicator value with a bound. *)
Ltac split_tests :=
  repeat match goal with
  | |- context [Py.gt ?x ?y] => destruct (Py.gt x y)
  | |- context [Py.lt ?x ?y] => destruct (Py.lt x y)
  end.

Ltac split_ifs :=
  repeat match goal with
  | |- context [if ?c then _ else _] => destruct c
  end.

(** Unfolds one bar of the loop down to the tests of [next]. *)
Ltac open_next :=
  unfold Engine.step, RSIStrategy.calls, RSIStrategy.next, RSIStrategy.when,
    RSIStrategy.bind, RSIStrategy.get_position, RSIStrategy.position_close,
    RSIStrategy.submit, RSIStrategy.ret, Engine.self_at;
  simpl.

(** Unfolds the calls of [next] down to its tests. *)
Ltac open_calls :=
  unfold RSIStrategy.calls, RSIStrategy.next, RSIStrategy.when,
    RSIStrategy.bind, RSIStrategy.get_position, RSIStrategy.position_close,
    RSIStrategy.submit, RSIStrategy.ret.

End Tactics.

(** ** Statements about one call of [next] *)

Module StrategyFacts.

Import RSIStrategy SignalRules.

Lemma Qltb_lt x y : Py.Qltb x y = true <-> x < y.
Proof.
  unfold Py.Qltb. rewrite negb_true_iff.
  split; intro H.
  - apply Qnot_le_lt. intro L. apply Qle_bool_iff in L. congruence.
  - destruct (Qle_bool y x) eqn:L; [|reflexivity].
    apply Qle_bool_iff in L. exfalso. exact (Qlt_not_le _ _ H L).
Qed.

Lemma no_double_crossing (ub lb : Z) (v : Q) :
  (lb <= ub)%Z ->
  Py.Qltb (inject_Z ub) v = true -> Py.Qltb v (inject_Z lb) = true -> False.
Proof.
  intros Hb H1 H2. apply Qltb_lt in H1. apply Qltb_lt in H2.
  assert (inject_Z lb <= inject_Z ub) by (rewrite <- Zle_Qle; exact Hb).
  lra.
Qed.

Example long_reverses_on_upper_crossing :
  map action_of
    (calls (self_in (declared 1) (Some Engine.Long) (Some 75) (Some 65)
                    5000 (bar_at 100) false))
  = [ClosePosition; OpenShort].
Proof. reflexivity. Qed.

Example above_bound_without_crossing :
  calls (self_in (declared 1) None (Some 80) (Some 85) 5000 (bar_at 100)
                 false)
  = [].
Proof. reflexivity. Qed.

(** C1: with both indicator values defined (and the lower bound not above
    the upper one, as the widgets ensure), the calls of [next] are the
    actions of the five rules applied in their order, and the state they
    lead to is the state the rules give, whether or not the broker shows a
    close at once; without a crossing of either bound between the two
    samples [next] makes no call. *)
Theorem next_applies_ordered_rules (c : Class) (s : State) (v_prev v_now : Q)
    (E : Q) (b : Bar) (at_once : bool) :
  (lower_bound c <= upper_bound c)%Z ->
  let self := self_in c s (Some v_prev) (Some v_now) E b at_once in
  let r := transition (upper_bound c) (lower_bound c) v_prev v_now s in
  map action_of (calls self) = snd r
  /\ fold_left after (calls self) s = fst r
  /\ (crossed_up v_prev v_now (lower_bound c) = false ->
      crossed_down v_prev v_now (upper_bound c) = false ->
      calls self = []).
Proof.
  intros Hb self r. subst self r.
  unfold calls, next, transition, then_rule, rule1, rule2, rule3, rule4,
    crossed_up, crossed_down, self_in, when, bind, get_position,
    position_close, submit, ret; simpl.
  destruct (Py.Qltb (inject_Z (upper_bound c)) v_prev) eqn:A;
  destruct (Py.Qltb v_prev (inject_Z (lower_bound c))) eqn:C;
  try (exfalso; exact (no_double_crossing _ _ _ Hb A C));
  destruct (Py.Qltb v_now (inject_Z (upper_bound c))) eqn:B;
  destruct (Py.Qltb (inject_Z (lower_bound c)) v_now) eqn:D;
  destruct s as [[|]|], at_once; simpl; repeat split; intros; congruence.
Qed.

Lemma next_applies_ordered_rules_witness :
  let c := declared 1 in
  let self := self_in c (Some Engine.Short) (Some 25) (Some 35) 5000
                      (bar_at 100) false in
  let r := transition (upper_bound c) (lower_bound c) 25 35
                      (Some Engine.Short) in
  map action_of (calls self) = snd r
  /\ fold_left after (calls self) (Some Engine.Short) = fst r
  /\ (crossed_up 25 35 (lower_bound c) = false ->
      crossed_down 25 35 (upper_bound c) = false ->
      calls self = []).
Proof.
  apply (next_applies_ordered_rules (declared 1) (Some Engine.Short) 25 35
           5000 (bar_at 100) false).
  simpl. lia.
Defined.

(** Every call of [next] is a close, or an order of the truncated size
    with the stop of its side. *)
Lemma calls_cases (self : Self) (c : Call) :
  In c (calls self) ->
  c = PositionClose
  \/ c = Buy (Py.int (position_size self)) (stop_loss_long self)
  \/ c = Sell (Py.int (position_size self)) (stop_loss_short self).
Proof.
  unfold calls, next, when, bind, get_position, position_close, submit, ret.
  destruct (closes_at_once self);
  destruct (position_at_call self) as [[|] [|]];
  destruct (Py.gt (rsi_before self) (upper_bound (cls self)));
  destruct (Py.lt (rsi_last self) (upper_bound (cls self)));
  destruct (Py.lt (rsi_before self) (lower_bound (cls self)));
  destruct (Py.gt (rsi_last self) (lower_bound (cls self)));
  simpl; intuition (subst; auto).
Qed.

Lemma order_size_int (self : Self) (c : Call) (n : Z) :
  In c (calls self) -> order_size c = Some n ->
  n = Py.int (position_size self).
Proof.
  intros Hin Hn.
  destruct (calls_cases self c Hin) as [->|[->| ->]];
    simpl in Hn; congruence.
Qed.

Lemma int_floor (x : Q) : 0 <= x -> Py.int x = Qfloor x.
Proof.
  destruct x as [n d]. unfold Qle, Py.int, Qfloor; simpl.
  intro H. apply Z.quot_div_nonneg; lia.
Qed.

Lemma int_le (x : Q) : 0 <= x -> inject_Z (Py.int x) <= x.
Proof. intro H. rewrite (int_floor x H). apply Qfloor_le. Qed.

Lemma position_size_pos (self : Self) :
  0 < equity self -> 0 < leverage (cls self) -> 0 < Close (data self) ->
  0 < position_size self.
Proof.
  intros HE HL HP. unfold position_size.
  apply Qlt_shift_div_l; [exact HP|].
  rewrite Qmult_0_l. apply Qmult_lt_0_compat; assumption.
Qed.

(** The loss at the stop is the risked amount scaled by the share of the
    un-truncated size that the order keeps. *)
Lemma loss_formula (self : Self) (c : Call) (n : Z) :
  0 < equity self -> 0 < leverage (cls self) -> 0 < Close (data self) ->
  In c (calls self) -> order_size c = Some n ->
  loss_if_stopped (Close (data self)) c
  == equity self * risk (cls self) / 100
     * (inject_Z n / position_size self).
Proof.
  intros HE HL HP Hin Hn.
  assert (Hx : ~ position_size self == 0).
  { pose proof (position_size_pos self HE HL HP). lra. }
  destruct (calls_cases self c Hin) as [->|[->| ->]];
    simpl in Hn; try discriminate; injection Hn as <-; simpl;
    unfold stop_loss_long, stop_loss_short; field; exact Hx.
Qed.

Example sizer_example_values :
  let self := self_in (declared 1) None (Some 25) (Some 35) 5000
                      (bar_at 100) false in
  calls self = [Buy 50 (stop_loss_long self)]
  /\ stop_loss_long self == 99 /\ stop_loss_short self == 101.
Proof. repeat split. Qed.

(** C2, as the code has it: the size of every order [next] submits is
    [int(equity * leverage / close)], truncated toward zero; whenever
    [equity * leverage >= close > 0] it is the floor of the quotient and at
    least one unit. *)
Theorem order_size_is_truncated_quotient (self : Self) (c : Call) (n : Z) :
  In c (calls self) -> order_size c = Some n ->
  n = Py.int (equity self * leverage (cls self) / Close (data self))
  /\ (0 < Close (data self) ->
      Close (data self) <= equity self * leverage (cls self) ->
      n = Qfloor (equity self * leverage (cls self) / Close (data self))
      /\ (1 <= n)%Z).
Proof.
  intros Hin Hn.
  pose proof (order_size_int self c n Hin Hn) as E.
  split; [exact E|]. intros HP Hge.
  assert (H1 : 1 <= position_size self).
  { unfold position_size. apply Qle_shift_div_l; [exact HP|]. lra. }
  assert (F : n = Qfloor (position_size self)).
  { rewrite E. apply int_floor. lra. }
  split; [exact F|].
  rewrite F. change 1%Z with (Qfloor (inject_Z 1)).
  apply Qfloor_resp_le. exact H1.
Qed.

Lemma order_size_is_truncated_quotient_witness :
  let self := self_in (declared 1) None (Some 25) (Some 35) 5000
                      (bar_at 100) false in
  50%Z = Py.int (equity self * leverage (cls self) / Close (data self))
  /\ (0 < Close (data self) ->
      Close (data self) <= equity self * leverage (cls self) ->
      50%Z = Qfloor (equity self * leverage (cls self) / Close (data self))
      /\ (1 <= 50)%Z).
Proof.
  apply (order_size_is_truncated_quotient
           (self_in (declared 1) None (Some 25) (Some 35) 5000 (bar_at 100) false)
           (Buy 50 (stop_loss_long
              (self_in (declared 1) None (Some 25) (Some 35) 5000
                       (bar_at 100) false)))).
  - simpl. left. reflexivity.
  - reflexivity.
Defined.

(** C2, counterexample: with equity 1000, leverage 1 and a close of 60000
    the computed size is 0, and the order is submitted all the same: the
    step is not a hold. *)
Lemma zero_size_order_is_submitted :
  let self := self_in (declared 1) None (Some 25) (Some 35) 1000
                      (bar_at 60000) false in
  (Py.int (position_size self) <= 0)%Z
  /\ calls self = [Buy 0 (stop_loss_long self)]
  /\ calls self <> [].
Proof.
  split; [vm_compute; discriminate|].
  split; [reflexivity | discriminate].
Qed.

(** C3, as the code has it: the stop of every order lies at the distance
    [(E * R / 100) / (E * L / P)] from the close, below it for a buy and
    above it for a sell: the divisor is the un-truncated size, and the
    distance is [(E * R / 100) / size] when the quotient is a whole number.
    For equity 5000, leverage 1, risk 1 and price 100 the size is 50, the
    distance 1 and the long stop 99. *)
Theorem stop_distance_from_untruncated_size (self : Self) (c : Call) :
  In c (calls self) ->
  let E := equity self in
  let R := risk (cls self) in
  let L := leverage (cls self) in
  let P := Close (data self) in
  let distance := (E * R / 100) / (E * L / P) in
  match c with
  | PositionClose => True
  | Buy n sl =>
      sl == P - distance
      /\ (inject_Z n == E * L / P -> distance == (E * R / 100) / inject_Z n)
  | Sell n sl =>
      sl == P + distance
      /\ (inject_Z n == E * L / P -> distance == (E * R / 100) / inject_Z n)
  end
  /\ (let example := self_in (declared 1) None (Some 25) (Some 35) 5000
                             (bar_at 100) false in
      calls example = [Buy 50 (stop_loss_long example)]
      /\ 100 - stop_loss_long example == 1
      /\ stop_loss_long example == 99).
Proof.
  intros Hin E R L P distance.
  split; [|repeat split].
  destruct (calls_cases self c Hin) as [->|[->| ->]]; [exact I| |];
    (split;
     [ unfold stop_loss_long, stop_loss_short, position_size;
       subst E R L P distance; unfold Qdiv, Qminus; ring
     | intro Hn; subst distance; rewrite Hn; reflexivity ]).
Qed.

Lemma stop_distance_from_untruncated_size_witness :
  let self := self_in (declared 1) (Some Engine.Long) (Some 75) (Some 65)
                      5000 (bar_at 100) false in
  (stop_loss_short self == 100 + (5000 * 1 / 100) / (5000 * 1 / 100)
   /\ (inject_Z 50 == 5000 * 1 / 100 ->
       (5000 * 1 / 100) / (5000 * 1 / 100)
       == (5000 * 1 / 100) / inject_Z 50))
  /\ (let example := self_in (declared 1) None (Some 25) (Some 35) 5000
                             (bar_at 100) false in
      calls example = [Buy 50 (stop_loss_long example)]
      /\ 100 - stop_loss_long example == 1
      /\ stop_loss_long example == 99).
Proof.
  apply (stop_distance_from_untruncated_size
           (self_in (declared 1) (Some Engine.Long) (Some 75) (Some 65)
                    5000 (bar_at 100) false)
           (Sell 50 (stop_loss_short
              (self_in (declared 1) (Some Engine.Long) (Some 75) (Some 65)
                       5000 (bar_at 100) false)))).
  simpl. right. left. reflexivity.
Defined.

(** C3, counterexample: with equity 5000, leverage 1, risk 1 and a close of
    3 the order has size 1666 and its stop lies 3/100 below the close, not
    [(5000 * 1 / 100) / 1666]. *)
Lemma stop_distance_not_from_order_size :
  let self := self_in (declared 1) None (Some 25) (Some 35) 5000
                      (bar_at 3) false in
  calls self = [Buy 1666 (stop_loss_long self)]
  /\ Close (data self) - stop_loss_long self == 3 # 100
  /\ ~ Close (data self) - stop_loss_long self
       == (5000 * 1 / 100) / inject_Z 1666.
Proof.
  split; [reflexivity|]. split; [reflexivity|].
  intro H. vm_compute in H. discriminate.
Qed.

(** C8, as the code has it, in exact arithmetic: the loss at the stop is
    the risked amount [E * R / 100] scaled by [size / (E * L / P)]; it
    equals the risked amount, whatever the leverage, when [E * L / P] is a
    whole number. *)
Theorem loss_at_stop_scaled_by_truncation (self : Self) (c : Call) (n : Z) :
  0 < equity self -> 0 < leverage (cls self) -> 0 < Close (data self) ->
  In c (calls self) -> order_size c = Some n ->
  loss_if_stopped (Close (data self)) c
  == equity self * risk (cls self) / 100
     * (inject_Z n
        / (equity self * leverage (cls self) / Close (data self)))
  /\ (inject_Z n == equity self * leverage (cls self) / Close (data self) ->
      loss_if_stopped (Close (data self)) c
      == equity self * risk (cls self) / 100).
Proof.
  intros HE HL HP Hin Hn.
  pose proof (loss_formula self c n HE HL HP Hin Hn) as F.
  pose proof (position_size_pos self HE HL HP) as Hx.
  unfold position_size in F, Hx.
  split; [exact F|].
  intro Hw. rewrite F, Hw. field.
  split; lra.
Qed.

Lemma loss_at_stop_scaled_by_truncation_witness :
  let self := self_in (declared 2) None (Some 25) (Some 35) 5000
                      (bar_at 100) false in
  let c := Buy 100 (stop_loss_long self) in
  loss_if_stopped 100 c == 5000 * 1 / 100 * (inject_Z 100 / (5000 * 2 / 100))
  /\ (inject_Z 100 == 5000 * 2 / 100 ->
      loss_if_stopped 100 c == 5000 * 1 / 100).
Proof.
  apply (loss_at_stop_scaled_by_truncation
           (self_in (declared 2) None (Some 25) (Some 35) 5000 (bar_at 100) false)
           (Buy 100 (stop_loss_long
              (self_in (declared 2) None (Some 25) (Some 35) 5000
                       (bar_at 100) false)))
           100%Z); try reflexivity.
  simpl. left. reflexivity.
Defined.

(** C8, counterexample: with equity 5000, risk 1 and a close of 3 the loss
    at the stop is 49.98 at leverage 1 and 49.995 at leverage 2, not the
    risked 50, and not the same for the two leverages. *)
Lemma loss_at_stop_not_exactly_risk :
  let self1 := self_in (declared 1) None (Some 25) (Some 35) 5000
                       (bar_at 3) false in
  let self2 := self_in (declared 2) None (Some 25) (Some 35) 5000
                       (bar_at 3) false in
  let c1 := Buy 1666 (stop_loss_long self1) in
  let c2 := Buy 3333 (stop_loss_long self2) in
  calls self1 = [c1] /\ calls self2 = [c2]
  /\ loss_if_stopped 3 c1 == 4998 # 100
  /\ loss_if_stopped 3 c2 == 49995 # 1000
  /\ ~ loss_if_stopped 3 c1 == 5000 * 1 / 100
  /\ ~ loss_if_stopped 3 c1 == loss_if_stopped 3 c2.
Proof.
  repeat (split; [reflexivity|]).
  split; intro H; vm_compute in H; discriminate.
Qed.

(** C10, in exact arithmetic: the stop distance is computed from the
    un-truncated size and the order carries the truncated one, so the loss
    at the stop is at most [R] percent of the equity at entry, and strictly
    less when truncation discards a fraction of a unit. *)
Theorem loss_at_stop_at_most_risk (self : Self) (c : Call) (n : Z) :
  0 < equity self -> 0 < leverage (cls self) -> 0 < Close (data self) ->
  0 < risk (cls self) ->
  In c (calls self) -> order_size c = Some n ->
  loss_if_stopped (Close (data self)) c
  <= equity self * risk (cls self) / 100
  /\ (inject_Z n < equity self * leverage (cls self) / Close (data self) ->
      loss_if_stopped (Close (data self)) c
      < equity self * risk (cls self) / 100).
Proof.
  intros HE HL HP HR Hin Hn.
  pose proof (loss_formula self c n HE HL HP Hin Hn) as F.
  pose proof (position_size_pos self HE HL HP) as Hx.
  assert (HA : 0 < equity self * risk (cls self) / 100).
  { apply Qlt_shift_div_l; [reflexivity|].
    rewrite Qmult_0_l. apply Qmult_lt_0_compat; assumption. }
  assert (Hle : inject_Z n <= position_size self).
  { rewrite (order_size_int self c n Hin Hn).
    apply int_le. apply Qlt_le_weak. exact Hx. }
  unfold position_size in F, Hx, Hle.
  set (A := equity self * risk (cls self) / 100) in *.
  set (x := equity self * leverage (cls self) / Close (data self)) in *.
  split.
  - rewrite F. rewrite <- (Qmult_1_r A) at 2.
    apply Qmult_le_l; [exact HA|].
    apply Qle_shift_div_r; [exact Hx|]. lra.
  - intro Hlt. rewrite F. rewrite <- (Qmult_1_r A) at 2.
    apply Qmult_lt_l; [exact HA|].
    apply Qlt_shift_div_r; [exact Hx|]. lra.
Qed.

Lemma loss_at_stop_at_most_risk_witness :
  let self := self_in (declared 1) None (Some 25) (Some 35) 5000
                      (bar_at 3) false in
  let c := Buy 1666 (stop_loss_long self) in
  loss_if_stopped 3 c <= 5000 * 1 / 100
  /\ (inject_Z 1666 < 5000 * 1 / 3 -> loss_if_stopped 3 c < 5000 * 1 / 100).
Proof.
  apply (loss_at_stop_at_most_risk
           (self_in (declared 1) None (Some 25) (Some 35) 5000 (bar_at 3) false)
           (Buy 1666 (stop_loss_long
              (self_in (declared 1) None (Some 25) (Some 35) 5000
                       (bar_at 3) false)))
           1666%Z); try reflexivity.
  simpl. left. reflexivity.
Defined.

End StrategyFacts.

(** ** Statements about runs *)

Module EngineFacts.

Import RSIStrategy Engine Tactics.

(** On a not-a-number indicator value every test of [next] is false. *)
Lemma calls_undefined (self : Self) :
  rsi_before self = None \/ rsi_last self = None -> calls self = [].
Proof.
  unfold calls, next, when, bind, get_position, position_close, submit, ret.
  destruct (position_at_call self) as [[|] [|]];
    intros [H|H]; rewrite H; simpl; split_tests; reflexivity.
Qed.

Lemma step_single (cfg : Config) (cls : Class) (i : nat) (prev b : Bar)
    (a : Account) :
  single_position a -> single_position (step cfg cls i prev b a).
Proof.
  destruct a as [c bk tl ec ev]. unfold single_position; simpl.
  intros (Hlen & Hv & Hev). open_next.
  destruct bk as [|[[|] n e sl k] [|q r]]; simpl in *; try lia;
    split_tests; simpl; unfold open_position, close_all; simpl;
    split_ifs; simpl;
    repeat split; try lia; try assumption;
    apply Forall_app; split; try assumption;
    repeat constructor; discriminate.
Qed.

Lemma loop_single (cfg : Config) (cls : Class) (rest : list Bar) :
  forall (i : nat) (prev : Bar) (a : Account),
  single_position a -> Forall single_position (loop cfg cls i prev rest a).
Proof.
  induction rest as [|b rest IH]; intros i prev a Ha; simpl.
  - constructor.
  - pose proof (step_single cfg cls i prev b a Ha) as Hs.
    constructor; [exact Hs|]. apply IH. exact Hs.
Qed.

Lemma start_single (capital : Q) : single_position (start capital).
Proof. repeat split; simpl; auto. Qed.

(** C7: after every bar of every run at most one position is open, the
    book is never long and short at once, and the strategy never even asks
    for a position while one is open. *)
Theorem run_holds_single_position (cfg : Config) (cls : Class)
    (period : nat) (capital : Q) (bars : list Bar) :
  Forall single_position (run cfg cls period capital bars).
Proof.
  unfold run. destruct (skipn period bars) as [|prev rest].
  - constructor.
  - apply loop_single. apply start_single.
Qed.

Lemma open_position_keeps (cfg : Config) (i : nat) (P : Q) (d : Direction)
    (n : Z) (sl : Q) (a : Account) :
  trade_log (open_position cfg i P d n sl a) = trade_log a
  /\ (forall p, In p (book a) -> In p (book (open_position cfg i P d n sl a))).
Proof.
  unfold open_position.
  destruct (n <=? 0)%Z; [simpl; auto|].
  destruct (book a) eqn:Hb; [|simpl; rewrite Hb; auto].
  destruct (Py.Qltb _ _); simpl; rewrite ?Hb; auto.
Qed.

Lemma step_exit_only_on_signal (cfg : Config) (cls : Class) (i : nat)
    (prev b : Bar) (a : Account) :
  exit_only_on_signal cls prev b a (step cfg cls i prev b a).
Proof.
  unfold exit_only_on_signal, exit_signal, step, self_at.
  destruct (view (book a)) as [[|] [|]]; open_next;
  split_tests; simpl; auto;
    try (split; [intro H; exfalso; apply H; reflexivity | auto]);
    split;
    try (intro H; exfalso; apply H;
         apply (open_position_keeps cfg i (Close b)));
    try (intros p Hp; left;
         apply (open_position_keeps cfg i (Close b)); exact Hp).
Qed.

Lemma loop_exits_on_signals (cfg : Config) (cls : Class) (rest : list Bar) :
  forall (i : nat) (prev : Bar) (a : Account),
  exits_on_signals cls prev rest a (loop cfg cls i prev rest a).
Proof.
  induction rest as [|b rest IH]; intros i prev a; simpl; [exact I|].
  split; [apply step_exit_only_on_signal | apply IH].
Qed.

Lemma step_same_signal (cfg : Config) (cls : Class) (i : nat)
    (prev prev' b b' : Bar) (a : Account) :
  same_signal prev prev' -> same_signal b b' ->
  step cfg cls i prev b a = step cfg cls i prev' b' a.
Proof.
  intros [_ Hp] [Hc Hr].
  unfold step, calls, next, self_at, stop_loss_long, stop_loss_short.
  unfold position_size; simpl.
  rewrite Hp, Hc, Hr. reflexivity.
Qed.

Lemma loop_same_signal (cfg : Config) (cls : Class)
    (rest rest' : list Bar) :
  Forall2 same_signal rest rest' ->
  forall (i : nat) (prev prev' : Bar) (a : Account),
  same_signal prev prev' ->
  loop cfg cls i prev rest a = loop cfg cls i prev' rest' a.
Proof.
  induction 1 as [|b b' rest rest' Hb _ IH]; intros i prev prev' a Hp;
    simpl; [reflexivity|].
  rewrite (step_same_signal cfg cls i prev prev' b b' a Hp Hb).
  f_equal. apply IH. exact Hb.
Qed.

Lemma skipn_same_signal (n : nat) :
  forall bars bars' : list Bar,
  Forall2 same_signal bars bars' ->
  Forall2 same_signal (skipn n bars) (skipn n bars').
Proof.
  induction n as [|n IH]; intros bars bars' H; simpl; [exact H|].
  destruct H; [constructor | apply IH; assumption].
Qed.

(** C4: a run reads nothing of a bar but its close and its indicator value
    (two series that agree on these give the same accounts, whatever their
    opens, highs and lows), and along a run a trade is recorded and a
    position leaves the book only at a bar where the crossing rule against
    its direction fires: the stop carried by the position never ends it. *)
Theorem stop_never_ends_a_position (cfg : Config) (cls : Class)
    (period : nat) (capital : Q) (bars bars' : list Bar) :
  Forall2 same_signal bars bars' ->
  run cfg cls period capital bars' = run cfg cls period capital bars
  /\ run_exits_on_signals cls period capital bars
       (run cfg cls period capital bars).
Proof.
  intro H. split.
  - unfold run. pose proof (skipn_same_signal period bars bars' H) as Hs.
    destruct Hs as [|prev prev' rest rest' Hp Hr]; [reflexivity|].
    symmetry. apply loop_same_signal; assumption.
  - unfold run_exits_on_signals, run.
    destruct (skipn period bars) as [|prev rest]; [exact I|].
    apply loop_exits_on_signals.
Qed.

Lemma stop_never_ends_a_position_witness :
  run Samples.cfg (declared 2) 1 5000 Samples.calm_bars
  = run Samples.cfg (declared 2) 1 5000 Samples.bars
  /\ run_exits_on_signals (declared 2) 1 5000 Samples.bars
       (run Samples.cfg (declared 2) 1 5000 Samples.bars).
Proof.
  apply (stop_never_ends_a_position Samples.cfg (declared 2) 1%nat 5000
           Samples.bars Samples.calm_bars).
  repeat constructor.
Defined.

End EngineFacts.

(** ** Statements about the application *)

Module AppFacts.

Import RSIStrategy Engine BacktestRSIApp.

Lemma length_assign_rsi (data : list Bar) :
  forall values, length (assign_rsi data values) = length data.
Proof.
  induction data as [|b data IH]; intros [|v values]; simpl;
    try rewrite IH; reflexivity.
Qed.

Lemma closes_assign_rsi (data : list Bar) :
  forall values, map Close (assign_rsi data values) = map Close data.
Proof.
  induction data as [|b data IH]; intros [|v values]; simpl;
    try rewrite IH; reflexivity.
Qed.

Lemma assign_rsi_twice (data : list Bar) :
  forall values,
  assign_rsi (assign_rsi data values) values = assign_rsi data values.
Proof.
  induction data as [|b data IH]; intros [|v values]; simpl;
    try rewrite IH; reflexivity.
Qed.

Lemma assign_rsi_nth (data : list Bar) :
  forall values k bar,
  nth_error (assign_rsi data values) k = Some bar ->
  RSI bar = nth k values None.
Proof.
  induction data as [|b data IH]; intros values k bar H.
  - destruct k; discriminate.
  - destruct values as [|v values], k as [|k]; simpl in H.
    + injection H as <-. reflexivity.
    + rewrite (IH [] k bar H). destruct k; reflexivity.
    + injection H as <-. reflexivity.
    + exact (IH values k bar H).
Qed.

Lemma warm_up_nth (n : nat) :
  forall values k, (k < n)%nat -> nth k (Indicator.warm_up n values) None = None.
Proof.
  induction n as [|n IH]; intros values k Hk; [lia|].
  destruct values as [|v values]; simpl.
  - destruct k; reflexivity.
  - destruct k as [|k]; [reflexivity|]. apply IH. lia.
Qed.

Lemma rsi_warm_up (closes : list Q) (n k : nat) :
  (k < n)%nat -> nth k (Indicator.rsi closes n) None = None.
Proof.
  intro Hk. unfold Indicator.rsi.
  destruct closes as [|c0 rest]; [destruct k; reflexivity|].
  destruct k as [|k]; [reflexivity|].
  simpl. apply warm_up_nth. lia.
Qed.










(** C6: when either of the two indicator values is undefined [next] makes
    no call, so the bar only marks the equity: cash, book, trade log and
    event log are those of the account before it; and the indicator column
    that [set_parameters] attaches is undefined on the first [period]
    bars. *)
Theorem undefined_indicator_is_a_hold :
  (forall self : Self,
     rsi_before self = None \/ rsi_last self = None -> calls self = [])
  /\ (forall (cfg : Config) (c : Class) (i : nat) (prev b : Bar)
        (a : Account),
      RSI prev = None \/ RSI b = None ->
      step cfg c i prev b a = mark (Close b) a)
  /\ (forall (inp : Inputs) (data : list Bar) (c : Class) (k : nat)
        (bar : Bar),
      (k < period inp)%nat ->
      nth_error (fst (fst (set_parameters inp data c))) k = Some bar ->
      RSI bar = None).
Proof.
  split; [exact EngineFacts.calls_undefined|]. split.
  - intros cfg c i prev b a H. unfold step.
    rewrite EngineFacts.calls_undefined; [reflexivity|].
    simpl. tauto.
  - intros inp data c k bar Hk H.
    assert (D : fst (fst (set_parameters inp data c))
                = assign_rsi data
                    (Indicator.rsi (map Close data) (period inp))).
    { unfold set_parameters. destruct (button inp); reflexivity. }
    rewrite D in H. rewrite (assign_rsi_nth _ _ _ _ H).
    apply rsi_warm_up. exact Hk.
Qed.

Lemma undefined_indicator_is_a_hold_witness :
  calls (SignalRules.self_in (declared 1) (Some Long) None (Some 65) 5000
                             (SignalRules.bar_at 100) false) = []
  /\ step Samples.cfg (declared 2) 1 (Samples.bar 100 101 99 None)
          (Samples.bar 100 101 99 (Some 25)) (start 5000)
     = mark 100 (start 5000)
  /\ RSI (Samples.bar 102 103 101 None) = None.
Proof.
  destruct undefined_indicator_is_a_hold as (H1 & H2 & H3).
  split; [apply H1; left; reflexivity|].
  split; [apply (H2 Samples.cfg (declared 2) 1%nat
                    (Samples.bar 100 101 99 None)
                    (Samples.bar 100 101 99 (Some 25)) (start 5000));
          left; reflexivity|].
  apply (H3 (Samples.inputs 3 true) Samples.rows (declared 1) 2%nat).
  - simpl. lia.
  - reflexivity.
Defined.

(** C9: the outcome of a run is a function of the inputs and the data: it
    does not depend on the class attributes a previous run left behind,
    and running again on the data and the class as the first run left
    them reproduces the same data, class and outcome, equity curve and
    trade log included. *)
Theorem rerun_reproduces_outcome (inp : Inputs) (data : list Bar)
    (cls1 cls2 : Class) :
  snd (set_parameters inp data cls1) = snd (set_parameters inp data cls2)
  /\ (let r := set_parameters inp data cls1 in
      set_parameters inp (fst (fst r)) (snd (fst r)) = r).
Proof.
  unfold set_parameters, run_backtest.
  destruct (button inp); simpl; split; try reflexivity;
    rewrite closes_assign_rsi, assign_rsi_twice; reflexivity.
Qed.

End AppFacts.

(** ** Further statements about [next] *)

Module StrategyMore.

Import RSIStrategy SignalRules Tactics.

Lemma no_double_crossing_float (ub lb : Z) (v : Py.float) :
  (lb <= ub)%Z -> Py.gt v ub = true -> Py.lt v lb = true -> False.
Proof.
  destruct v as [x|]; simpl; [|discriminate].
  apply StrategyFacts.no_double_crossing.
Qed.

(** X1: one call of [next] submits at most one close, then at most one
    order: nothing, a close, an order, or a close followed by an order. *)
Theorem next_submits_close_then_order (self : Self) :
  is_long (position_at_call self) && is_short (position_at_call self)
  = false ->
  calls self = [] \/ calls self = [PositionClose]
  \/ exists o, order_size o <> None
       /\ (calls self = [o] \/ calls self = [PositionClose; o]).
Proof.
  open_calls.
  destruct (closes_at_once self);
  destruct (position_at_call self) as [[|] [|]]; simpl; intro Hv;
    try discriminate; split_tests; simpl;
    try (left; reflexivity); try (right; left; reflexivity);
    right; right; eexists;
    (split; [|first [left; reflexivity | right; reflexivity]]);
    simpl; discriminate.
Qed.

Lemma next_submits_close_then_order_witness :
  let self := self_in (declared 1) (Some Engine.Long) (Some 75) (Some 65)
                      5000 (bar_at 100) true in
  calls self = [] \/ calls self = [PositionClose]
  \/ exists o, order_size o <> None
       /\ (calls self = [o] \/ calls self = [PositionClose; o]).
Proof.
  apply (next_submits_close_then_order
           (self_in (declared 1) (Some Engine.Long) (Some 75) (Some 65)
                    5000 (bar_at 100) true)).
  reflexivity.
Defined.

(** X2: [next] closes the position only on the crossing against the
    direction held when it is called: a long position on a fall through
    the upper bound, a short one on a rise through the lower bound. *)
Theorem next_closes_only_against_position (self : Self) :
  In PositionClose (calls self) ->
  (is_long (position_at_call self)
   && Py.gt (rsi_before self) (upper_bound (cls self))
   && Py.lt (rsi_last self) (upper_bound (cls self)))
  || (is_short (position_at_call self)
      && Py.lt (rsi_before self) (lower_bound (cls self))
      && Py.gt (rsi_last self) (lower_bound (cls self))) = true.
Proof.
  open_calls.
  destruct (closes_at_once self);
  destruct (position_at_call self) as [[|] [|]]; simpl;
    split_tests; simpl; intro H; try reflexivity;
    repeat (destruct H as [H|H]; [discriminate|]); contradiction.
Qed.

Lemma next_closes_only_against_position_witness :
  let self := self_in (declared 1) (Some Engine.Short) (Some 25) (Some 35)
                      5000 (bar_at 100) false in
  (is_long (position_at_call self)
   && Py.gt (rsi_before self) (upper_bound (cls self))
   && Py.lt (rsi_last self) (upper_bound (cls self)))
  || (is_short (position_at_call self)
      && Py.lt (rsi_before self) (lower_bound (cls self))
      && Py.gt (rsi_last self) (lower_bound (cls self))) = true.
Proof.
  apply (next_closes_only_against_position
           (self_in (declared 1) (Some Engine.Short) (Some 25) (Some 35)
                    5000 (bar_at 100) false)).
  simpl. left. reflexivity.
Defined.

(** X3: [next] never adds to a position: it submits no buy while long
    and no sell while short (for a position that is not long and short at
    once, and a lower bound not above the upper one or a broker that shows
    a close only after the call). *)
Theorem next_never_adds_to_position (self : Self) (c : Call) :
  is_long (position_at_call self) && is_short (position_at_call self)
  = false ->
  closes_at_once self = false
  \/ (lower_bound (cls self) <= upper_bound (cls self))%Z ->
  In c (calls self) ->
  match c with
  | PositionClose => True
  | Buy _ _ => is_long (position_at_call self) = false
  | Sell _ _ => is_short (position_at_call self) = false
  end.
Proof.
  open_calls.
  destruct (closes_at_once self);
  destruct (position_at_call self) as [[|] [|]]; simpl;
  intro Hv; try discriminate;
  destruct (Py.gt (rsi_before self) (upper_bound (cls self))) eqn:A;
  destruct (Py.lt (rsi_before self) (lower_bound (cls self))) eqn:C;
  intros Hb; split_tests; simpl; intro H;
    repeat (destruct H as [H|H]; [subst c; simpl; try reflexivity|]);
    try contradiction; try exact I;
    destruct Hb as [Hb|Hb]; try discriminate;
    exfalso; exact (no_double_crossing_float _ _ _ Hb A C).
Qed.

Lemma next_never_adds_to_position_witness :
  let self := self_in (declared 1) None (Some 25) (Some 35) 5000
                      (bar_at 100) true in
  is_long (position_at_call self) = false.
Proof.
  apply (next_never_adds_to_position
           (self_in (declared 1) None (Some 25) (Some 35) 5000
                    (bar_at 100) true)
           (Buy 50 (stop_loss_long
              (self_in (declared 1) None (Some 25) (Some 35) 5000
                       (bar_at 100) true)))).
  - reflexivity.
  - right. simpl. lia.
  - simpl. left. reflexivity.
Defined.

(** X4: an order submitted while a position is held is always the second
    call, right after the close of that position. *)
Theorem next_reverses_through_close (self : Self) (c : Call) :
  is_long (position_at_call self) && is_short (position_at_call self)
  = false ->
  is_long (position_at_call self) || is_short (position_at_call self)
  = true ->
  In c (calls self) -> order_size c <> None ->
  calls self = [PositionClose; c].
Proof.
  open_calls.
  destruct (closes_at_once self);
  destruct (position_at_call self) as [[|] [|]]; simpl;
    intros Hv Hp; try discriminate;
    split_tests; simpl; intros H Ho;
    repeat (destruct H as [H|H];
            [subst c; simpl in Ho; try congruence; try reflexivity|]);
    contradiction.
Qed.

Lemma next_reverses_through_close_witness :
  let self := self_in (declared 1) (Some Engine.Long) (Some 75) (Some 65)
                      5000 (bar_at 100) false in
  calls self = [PositionClose; Sell 50 (stop_loss_short self)].
Proof.
  apply (next_reverses_through_close
           (self_in (declared 1) (Some Engine.Long) (Some 75) (Some 65)
                    5000 (bar_at 100) false)).
  - reflexivity.
  - reflexivity.
  - simpl. right. left. reflexivity.
  - discriminate.
Defined.

Lemma stop_fractions (self : Self) :
  ~ equity self == 0 -> ~ leverage (cls self) == 0 ->
  ~ Close (data self) == 0 ->
  stop_loss_long self
  == Close (data self) * (1 - risk (cls self) / (100 * leverage (cls self)))
  /\ stop_loss_short self
     == Close (data self)
        * (1 + risk (cls self) / (100 * leverage (cls self))).
Proof.
  intros HE HL HP.
  unfold stop_loss_long, stop_loss_short, position_size.
  split; field; repeat split; assumption.
Qed.

(** X5: the stop of an order is a fixed fraction of the close, whatever the
    equity: [close * (1 - risk / (100 * leverage))] for a buy and
    [close * (1 + risk / (100 * leverage))] for a sell. *)
Theorem stop_is_fraction_of_close (self : Self) (c : Call) :
  ~ equity self == 0 -> ~ leverage (cls self) == 0 ->
  ~ Close (data self) == 0 ->
  In c (calls self) ->
  match c with
  | PositionClose => True
  | Buy _ sl =>
      sl == Close (data self)
            * (1 - risk (cls self) / (100 * leverage (cls self)))
  | Sell _ sl =>
      sl == Close (data self)
            * (1 + risk (cls self) / (100 * leverage (cls self)))
  end.
Proof.
  intros HE HL HP Hin.
  destruct (stop_fractions self HE HL HP) as [Hl Hs].
  destruct (StrategyFacts.calls_cases self c Hin) as [->|[->| ->]];
    [exact I | exact Hl | exact Hs].
Qed.

Lemma stop_is_fraction_of_close_witness :
  let self := self_in (declared 2) None (Some 25) (Some 35) 7000
                      (bar_at 100) false in
  stop_loss_long self == 100 * (1 - 1 / (100 * 2)).
Proof.
  apply (stop_is_fraction_of_close
           (self_in (declared 2) None (Some 25) (Some 35) 7000
                    (bar_at 100) false)
           (Buy 140 (stop_loss_long
              (self_in (declared 2) None (Some 25) (Some 35) 7000
                       (bar_at 100) false))));
    try (intro H; vm_compute in H; discriminate).
  simpl. left. reflexivity.
Defined.

Lemma int_lt_one (x : Q) : x < 1 -> (Py.int x <= 0)%Z.
Proof.
  destruct x as [n d]. unfold Qlt, Py.int; simpl. intro H.
  destruct (Z_lt_le_dec n 0) as [Hn|Hn].
  - apply Z.quot_le_upper_bound; lia.
  - rewrite Z.quot_small; lia.
Qed.

(** X8: at a positive close, the order has a size of at least one unit
    exactly when [equity * leverage] reaches the close. *)
Theorem order_size_positive_iff (self : Self) (c : Call) (n : Z) :
  0 < Close (data self) ->
  In c (calls self) -> order_size c = Some n ->
  (1 <= n)%Z <-> Close (data self) <= equity self * leverage (cls self).
Proof.
  intros HP Hin Hn.
  rewrite (StrategyFacts.order_size_int self c n Hin Hn).
  assert (Hq : 1 <= position_size self
               <-> Close (data self) <= equity self * leverage (cls self)).
  { unfold position_size. split; intro H.
    - apply (Qmult_le_compat_r _ _ (Close (data self))) in H; [|lra].
      rewrite Qmult_1_l in H.
      rewrite Qmult_comm, Qmult_div_r in H; [exact H | lra].
    - apply Qle_shift_div_l; [exact HP | lra]. }
  rewrite <- Hq. split; intro H.
  - destruct (Qlt_le_dec (position_size self) 1) as [Hlt|Hge];
      [|exact Hge].
    pose proof (int_lt_one _ Hlt). lia.
  - rewrite StrategyFacts.int_floor; [|lra].
    change 1%Z with (Qfloor (inject_Z 1)).
    apply Qfloor_resp_le. exact H.
Qed.

Lemma order_size_positive_iff_witness :
  let self := self_in (declared 1) None (Some 25) (Some 35) 1000
                      (bar_at 60000) false in
  (1 <= 0)%Z <-> Close (data self) <= equity self * leverage (cls self).
Proof.
  apply (order_size_positive_iff
           (self_in (declared 1) None (Some 25) (Some 35) 1000
                    (bar_at 60000) false)
           (Buy 0 (stop_loss_long
              (self_in (declared 1) None (Some 25) (Some 35) 1000
                       (bar_at 60000) false)))
           0%Z); try reflexivity.
  simpl. left. reflexivity.
Defined.

(** X6: with the class attributes that [run_backtest] assigns from widget
    values within their ranges, and a positive equity and close, the stop
    of a buy lies strictly below the close and the stop of a sell strictly
    above it. *)
Theorem widget_stops_bracket_close (inp : BacktestRSIApp.Inputs)
    (frame : list Bar) (c0 : Class) (self : Self) (c : Call) :
  Page.in_ranges inp = true ->
  cls self = fst (BacktestRSIApp.run_backtest inp frame c0) ->
  0 < equity self -> 0 < Close (data self) ->
  In c (calls self) ->
  match c with
  | PositionClose => True
  | Buy _ sl => sl < Close (data self)
  | Sell _ sl => Close (data self) < sl
  end.
Proof.
  unfold Page.in_ranges. rewrite !andb_true_iff, !Qle_bool_iff.
  intros [[[[[[[[[[[_ _] HL1] _] HR1] _] _] _] _] _] _] _] Hc HE HP Hin.
  assert (HL : leverage (cls self) = BacktestRSIApp.leverage inp)
    by (rewrite Hc; reflexivity).
  assert (HR : risk (cls self) = BacktestRSIApp.risk_percentage inp)
    by (rewrite Hc; reflexivity).
  rewrite <- HL in HL1. rewrite <- HR in HR1. clear Hc HL HR.
  destruct (stop_fractions self) as [Hl Hs]; try lra.
  set (t := risk (cls self) / (100 * leverage (cls self))) in *.
  assert (Ht0 : 0 < t).
  { apply Qlt_shift_div_l; lra. }
  assert (Hpt0 : 0 < Close (data self) * t)
    by (apply Qmult_lt_0_compat; assumption).
  destruct (StrategyFacts.calls_cases self c Hin) as [->|[->| ->]];
    [exact I | rewrite Hl | rewrite Hs]; lra.
Qed.

Lemma widget_stops_bracket_close_witness :
  let self := self_in (declared 1) None (Some 25) (Some 35) 5000
                      (bar_at 3) false in
  stop_loss_long self < 3.
Proof.
  apply (widget_stops_bracket_close (Samples.inputs 14 true) Samples.rows
           (declared 7)
           (self_in (declared 1) None (Some 25) (Some 35) 5000
                    (bar_at 3) false)
           (Buy 1666 (stop_loss_long
              (self_in (declared 1) None (Some 25) (Some 35) 5000
                       (bar_at 3) false)))); try reflexivity.
  simpl. left. reflexivity.
Defined.

Lemma int_ceiling (x : Q) : x <= 0 -> Py.int x = Qceiling x.
Proof.
  destruct x as [n d]. unfold Qle, Py.int, Qceiling, Qfloor, Qopp; simpl.
  intro H.
  replace n with (- - n)%Z at 1 by lia.
  rewrite Z.quot_opp_l by lia.
  rewrite Z.quot_div_nonneg by lia. reflexivity.
Qed.

Lemma int_monotone (x y : Q) : x <= y -> (Py.int x <= Py.int y)%Z.
Proof.
  intro H.
  destruct (Qlt_le_dec x 0) as [Hx|Hx].
  - destruct (Qlt_le_dec y 0) as [Hy|Hy].
    + rewrite !int_ceiling by lra. apply Qceiling_resp_le. exact H.
    + assert (Py.int x <= 0)%Z by (apply int_lt_one; lra).
      rewrite (StrategyFacts.int_floor y Hy).
      pose proof (Qfloor_resp_le 0 y Hy) as F.
      change (Qfloor 0) with 0%Z in F. lia.
  - rewrite !StrategyFacts.int_floor by lra.
    apply Qfloor_resp_le. exact H.
Qed.

(** X9: at the same positive close, a larger [equity * leverage] never
    gives a smaller order. *)
Theorem order_size_monotone (self1 self2 : Self) (c1 c2 : Call)
    (n1 n2 : Z) :
  Close (data self1) == Close (data self2) -> 0 < Close (data self1) ->
  equity self1 * leverage (cls self1)
  <= equity self2 * leverage (cls self2) ->
  In c1 (calls self1) -> order_size c1 = Some n1 ->
  In c2 (calls self2) -> order_size c2 = Some n2 ->
  (n1 <= n2)%Z.
Proof.
  intros HP Hpos Hle Hin1 Hn1 Hin2 Hn2.
  rewrite (StrategyFacts.order_size_int self1 c1 n1 Hin1 Hn1).
  rewrite (StrategyFacts.order_size_int self2 c2 n2 Hin2 Hn2).
  apply int_monotone. unfold position_size. rewrite <- HP.
  unfold Qdiv. apply Qmult_le_compat_r; [exact Hle|].
  apply Qinv_le_0_compat. lra.
Qed.

Lemma order_size_monotone_witness : (50 <= 100)%Z.
Proof.
  apply (order_size_monotone
           (self_in (declared 1) None (Some 25) (Some 35) 5000
                    (bar_at 100) false)
           (self_in (declared 2) (Some Engine.Long) (Some 75) (Some 65)
                    5000 (bar_at 100) false)
           (Buy 50 (stop_loss_long
              (self_in (declared 1) None (Some 25) (Some 35) 5000
                       (bar_at 100) false)))
           (Sell 100 (stop_loss_short
              (self_in (declared 2) (Some Engine.Long) (Some 75) (Some 65)
                       5000 (bar_at 100) false)))
           50%Z 100%Z); try reflexivity.
  - vm_compute. discriminate.
  - simpl. left. reflexivity.
  - simpl. right. left. reflexivity.
Defined.

End StrategyMore.

(** ** Statements about the page *)

Module PageFacts.

Import RSIStrategy BacktestRSIApp Page.

Lemma round_nonneg (x : Q) : 0 <= x -> (0 <= round_half_even x)%Z.
Proof.
  intro H. pose proof (Qfloor_resp_le 0 x H) as F.
  change (Qfloor 0) with 0%Z in F.
  unfold round_half_even.
  destruct (Py.Qltb _ _); [exact F|].
  destruct (Py.Qltb _ _); [lia|].
  destruct (Z.even _); lia.
Qed.

Lemma round_nearest (x : Q) :
  x - (1 # 2) <= inject_Z (round_half_even x)
  /\ inject_Z (round_half_even x) <= x + (1 # 2).
Proof.
  pose proof (Qfloor_le x) as Hlo. pose proof (Qlt_floor x) as Hhi.
  rewrite inject_Z_plus in Hhi. change (inject_Z 1) with 1 in Hhi.
  unfold round_half_even.
  destruct (Py.Qltb (x - inject_Z (Qfloor x)) (1 # 2)) eqn:A.
  - apply StrategyFacts.Qltb_lt in A. split; lra.
  - destruct (Py.Qltb (1 # 2) (x - inject_Z (Qfloor x))) eqn:B.
    + apply StrategyFacts.Qltb_lt in B. rewrite inject_Z_plus.
      change (inject_Z 1) with 1. split; lra.
    + assert (E : x - inject_Z (Qfloor x) == 1 # 2).
      { apply Qle_antisym; apply Qnot_lt_le; intro L;
          apply StrategyFacts.Qltb_lt in L; congruence. }
      destruct (Z.even _); rewrite ?inject_Z_plus;
        change (inject_Z 1) with 1; split; lra.
Qed.

Lemma round_negative (x : Q) : x < - (1 # 2) -> (round_half_even x < 0)%Z.
Proof.
  intro H. destruct (round_nearest x) as [_ Hu].
  assert (L : inject_Z (round_half_even x) < inject_Z 0)
    by (change (inject_Z 0) with 0; lra).
  rewrite <- Zlt_Qlt in L. exact L.
Qed.

Lemma round_small_loss (x : Q) :
  - (1 # 2) < x -> x < 0 -> round_half_even x = 0%Z.
Proof.
  intros H1 H2. destruct (round_nearest x) as [Hl Hu].
  assert (L : inject_Z (-1) < inject_Z (round_half_even x))
    by (change (inject_Z (-1)) with (- (1)); lra).
  assert (U : inject_Z (round_half_even x) < inject_Z 1)
    by (change (inject_Z 1) with 1; lra).
  rewrite <- Zlt_Qlt in L, U. lia.
Qed.

(** X11: [run_backtest] never shows the error box for a final equity that
    reaches the starting capital, always shows it for a loss of more than
    half a cent, and shows the success box, quoting a profit of zero, for
    a loss of less than half a cent. *)
Theorem profit_box_follows_rounded_profit (inp : Inputs) (r : Report) :
  let d := equity_final r - capital inp in
  let p := profit_total inp r in
  (0 <= d ->
   run_backtest_shown inp r
   = [Subheader; Results r; SuccessBox (ProfitTotal p); Plot])
  /\ (d < - (1 # 200) ->
      run_backtest_shown inp r
      = [Subheader; Results r; ErrorBox (ProfitTotal p); Plot])
  /\ (- (1 # 200) < d -> d < 0 ->
      run_backtest_shown inp r
      = [Subheader; Results r; SuccessBox (ProfitTotal p); Plot]
      /\ p == 0).
Proof.
  intros d p. unfold run_backtest_shown. fold p.
  assert (P0 : forall z : Z, (0 <= z)%Z -> Py.Qltb (inject_Z z / 100) 0 = false).
  { intros z Hz. destruct (Py.Qltb _ _) eqn:T; [|reflexivity].
    apply StrategyFacts.Qltb_lt in T.
    assert (0 <= inject_Z z / 100).
    { apply Qle_shift_div_l; [reflexivity|].
      rewrite Qmult_0_l. change 0 with (inject_Z 0).
      rewrite <- Zle_Qle. exact Hz. }
    lra. }
  split; [|split].
  - intro Hd. unfold p, profit_total, round2. fold d.
    rewrite P0; [reflexivity|]. apply round_nonneg.
    apply Qmult_le_0_compat; [exact Hd | discriminate].
  - intro Hd.
    assert (T : Py.Qltb p 0 = true).
    { apply StrategyFacts.Qltb_lt. unfold p, profit_total, round2. fold d.
      apply Qlt_shift_div_r; [reflexivity|]. rewrite Qmult_0_l.
      change 0 with (inject_Z 0). rewrite <- Zlt_Qlt.
      apply round_negative. lra. }
    rewrite T. reflexivity.
  - intros H1 H2.
    assert (Z0 : round_half_even (d * 100) = 0%Z)
      by (apply round_small_loss; lra).
    unfold p, profit_total, round2. fold d. rewrite Z0.
    split; reflexivity.
Qed.

Lemma profit_box_follows_rounded_profit_witness :
  let r := {| equity_final := 49999967 # 10000; curve := []; trades := [];
              events := [] |} in
  let p := profit_total (Samples.inputs 14 true) r in
  run_backtest_shown (Samples.inputs 14 true) r
  = [Subheader; Results r; SuccessBox (ProfitTotal p); Plot]
  /\ p == 0.
Proof.
  apply (profit_box_follows_rounded_profit (Samples.inputs 14 true)
           {| equity_final := 49999967 # 10000; curve := []; trades := [];
              events := [] |});
    reflexivity.
Defined.

Lemma assign_rsi_keeps_prices (frame : list Bar) :
  forall values,
  map (fun b => (Open b, High b, Low b, Close b)) (assign_rsi frame values)
  = map (fun b => (Open b, High b, Low b, Close b)) frame.
Proof.
  induction frame as [|b frame IH]; intros [|v values]; simpl;
    try rewrite IH; reflexivity.
Qed.

(** X12: [set_parameters] changes nothing of the data but the indicator
    column, whether or not the button is pressed: the rows are as many and
    each keeps its open, high, low and close. *)
Theorem set_parameters_keeps_prices (inp : Inputs) (frame : list Bar)
    (c : Class) :
  let frame' := fst (fst (set_parameters inp frame c)) in
  length frame' = length frame
  /\ map (fun b => (Open b, High b, Low b, Close b)) frame'
     = map (fun b => (Open b, High b, Low b, Close b)) frame.
Proof.
  unfold set_parameters. destruct (button inp); simpl; split;
    first [apply AppFacts.length_assign_rsi | apply assign_rsi_keeps_prices].
Qed.

Section AnyLoaders.

Variable File : Type.
Variable read_csv : File -> String.string + list Bar.
Variable download : String.string -> Timeframe -> String.string + list Bar.

Ltac open_setup :=
  unfold setup_ui, choose_data_source, load_csv_data, load_yahoo_data,
    set_parameters_shown, set_parameters, run_backtest.

(** X13: [self.output] is assigned only if the button was pressed and the
    chosen source delivered a frame: an uploaded file that [read_csv]
    read, or a download that succeeded. *)
Theorem output_needs_frame_and_button (w : Widgets File) (c : Class) :
  app_output (fst (fst (setup_ui File read_csv download w c))) <> None ->
  button (sidebar w) = true
  /\ match data_source w with
     | CSV =>
         exists f frame,
           uploaded_file w = Some f /\ read_csv f = inr frame
     | YahooFinance =>
         exists frame,
           download (symbol w) (timeframe w) = inr frame
     end.
Proof.
  open_setup.
  destruct (data_source w).
  - destruct (uploaded_file w) as [f|]; [|simpl; congruence].
    destruct (read_csv f) as [e|frame] eqn:R; simpl; [congruence|].
    destruct (button (sidebar w)); simpl; [|congruence].
    intros _. split; [reflexivity|]. exists f, frame. auto.
  - destruct (download (symbol w) (timeframe w)) as [e|frame] eqn:R;
      simpl; [congruence|].
    destruct (button (sidebar w)); simpl; [|congruence].
    intros _. split; [reflexivity|]. exists frame. reflexivity.
Qed.

(** X14: when no frame is loaded nothing else happens: no backtest is
    run, the class attributes of the strategy are left as they were, and
    the page shows the title and the introduction followed by at most one
    error box, that of the reader that raised. *)
Theorem no_frame_no_run (w : Widgets File) (c : Class) :
  app_data (fst (fst (setup_ui File read_csv download w c))) = None ->
  app_output (fst (fst (setup_ui File read_csv download w c))) = None
  /\ snd (fst (setup_ui File read_csv download w c)) = c
  /\ (snd (setup_ui File read_csv download w c) = [Title; Intro]
      \/ exists e,
           snd (setup_ui File read_csv download w c)
           = [Title; Intro; ErrorBox (CsvFailed e)]
           \/ snd (setup_ui File read_csv download w c)
              = [Title; Intro; ErrorBox (YahooFailed e)]).
Proof.
  open_setup.
  destruct (data_source w).
  - destruct (uploaded_file w) as [f|]; [|simpl; auto].
    destruct (read_csv f) as [e|frame]; simpl.
    + intros _. repeat split. right. exists e. left. reflexivity.
    + destruct (button (sidebar w)); simpl; discriminate.
  - destruct (download (symbol w) (timeframe w)) as [e|frame]; simpl.
    + intros _. repeat split. right. exists e. right. reflexivity.
    + destruct (button (sidebar w)); simpl; discriminate.
Qed.

End AnyLoaders.

Lemma output_needs_frame_and_button_witness :
  button (sidebar (sample_widgets CSV (Some 1%nat) true)) = true
  /\ exists f frame,
       uploaded_file (sample_widgets CSV (Some 1%nat) true) = Some f
       /\ sample_read_csv f = inr frame.
Proof.
  apply (output_needs_frame_and_button nat sample_read_csv sample_download
           (sample_widgets CSV (Some 1%nat) true) (declared 1)).
  vm_compute. discriminate.
Defined.

Lemma no_frame_no_run_witness :
  let r := setup_ui nat sample_read_csv sample_download
             (sample_widgets CSV (Some 0%nat) true) (declared 1) in
  app_output (fst (fst r)) = None
  /\ snd (fst r) = declared 1
  /\ (snd r = [Title; Intro]
      \/ exists e,
           snd r = [Title; Intro; ErrorBox (CsvFailed e)]
           \/ snd r = [Title; Intro; ErrorBox (YahooFailed e)]).
Proof.
  apply (no_frame_no_run nat sample_read_csv sample_download
           (sample_widgets CSV (Some 0%nat) true) (declared 1)).
  reflexivity.
Defined.

End PageFacts.

(** ** Statements about the sizing lines in binary64 *)

Module Binary64Facts.

Import Floats.

(** C10, counterexample: in binary64, with equity 5000, leverage 1, risk 1
    and a close of 1, the order has size 5000, so that truncation discards
    nothing, and its stop is the binary64 value next below 0.99; filled
    there, the position loses more than 1 percent of the equity. *)
Lemma binary64_loss_exceeds_risk :
  Binary64.int (Binary64.position_size 5000 1 1) = Some 5000%Z
  /\ Binary64.exact (Binary64.stop_loss_long 5000 1 1 1)
     = Some (inject_Z 8917127262193582 * Qpower 2 (-53))
  /\ match Binary64.loss_if_stopped_long 5000 1
             (Binary64.stop_loss_long 5000 1 1 1) with
     | Some loss => 5000 * 1 / 100 < loss
     | None => False
     end.
Proof.
  split; [vm_compute; reflexivity|].
  split; [vm_compute; reflexivity|].
  vm_compute. reflexivity.
Qed.

End Binary64Facts.
